(** * add_files_to_xcode.py: existence check and instruction printer

    A shallow embedding of the script [add_files_to_xcode.py] and of the
    three runtime primitives it calls ([os.path.join], [os.path.exists],
    [print]), followed by the properties of its observable behaviour.

    Strings are byte strings holding the UTF-8 encoding of the Python
    text.  The script runs on a POSIX platform (its project root is a
    macOS path), so [os.path] is [posixpath]. *)

From Stdlib Require Import String Ascii List ZArith Bool Lia.
Import ListNotations.
Open Scope string_scope.
Open Scope Z_scope.

(** ** The runtime: filesystem, exceptions, event log *)

(** What [os.stat] can report about a path.  [os.stat] follows symbolic
    links, so a dangling link is reported as [ENOENT]. *)
Inductive file_kind : Type :=
| Regular
| Directory
| Special.

Inductive errno : Type :=
| ENOENT
| EACCES
| ENOTDIR
| ELOOP
| ENAMETOOLONG.

Inductive stat_outcome : Type :=
| Found (k : file_kind)
| Failed (e : errno).

(** A filesystem state, seen through the one system call the script
    makes: the outcome of [stat] on every path. *)
Definition filesystem : Type := string -> stat_outcome.

(** The exceptions the called primitives can raise. *)
Inductive exn : Type :=
| OSError (e : errno)
| ValueError.

(** Observable actions of a run, in the order they happen: a call of
    [os.stat] on a path, and a call of [print] with its argument. *)
Inductive event : Type :=
| EvStat (path : string)
| EvPrint (text : string).

Record World : Type := mkWorld {
  fs : filesystem;
  trace : list event
}.

Inductive result (A : Type) : Type :=
| Returns (a : A)
| Raises (e : exn).

Arguments Returns {A} a.
Arguments Raises {A} e.

(** Python code: a state transformer on the world that returns a value
    or raises. *)
Definition Py (A : Type) : Type := World -> result A * World.

Definition ret {A : Type} (a : A) : Py A := fun w => (Returns a, w).

Definition raise {A : Type} (e : exn) : Py A := fun w => (Raises e, w).

Definition bind {A B : Type} (m : Py A) (k : A -> Py B) : Py B :=
  fun w =>
    match m w with
    | (Returns a, w') => k a w'
    | (Raises e, w') => (Raises e, w')
    end.

(** [try m except (OSError, ValueError): h] *)
Definition try_except {A : Type} (m : Py A) (h : Py A) : Py A :=
  fun w =>
    match m w with
    | (Returns a, w') => (Returns a, w')
    | (Raises (OSError _), w') => h w'
    | (Raises ValueError, w') => h w'
    end.

Notation "x <- m ;; k" := (bind m (fun x => k))
  (at level 61, m at next level, right associativity).
Notation "m ;;; k" := (bind m (fun _ => k))
  (at level 61, right associativity).

Definition log (e : event) : Py unit :=
  fun w => (Returns tt, {| fs := fs w; trace := trace w ++ [e] |}).

(** ** Strings *)

Definition nl : string := String (ascii_of_nat 10) EmptyString.
Definition dquote : string := String (ascii_of_nat 34) EmptyString.
Definition sep : string := "/".

(** [s.startswith(p)] *)
Definition startswith (s p : string) : bool := String.prefix p s.

(** [s.endswith(sep)] for the one-character separator *)
Fixpoint endswith_sep (s : string) : bool :=
  match s with
  | EmptyString => false
  | String c EmptyString => Ascii.eqb c "/"%char
  | String _ r => endswith_sep r
  end.

(** Does the path hold a NUL character?  [os.stat] refuses such a path
    with [ValueError] ("embedded null byte"). *)
Fixpoint has_nul (s : string) : bool :=
  match s with
  | EmptyString => false
  | String c r => Ascii.eqb c Ascii.zero || has_nul r
  end.

(** ** The primitives the script calls *)

(** [os.path.join(a, b)] of [posixpath], for two arguments: an absolute
    [b] replaces [a]; otherwise [b] is appended, after a separator unless
    [a] is empty or already ends with one. *)
Definition os_path_join (a b : string) : string :=
  if startswith b sep then b
  else if (String.eqb a "" || endswith_sep a)%bool then a ++ b
  else a ++ sep ++ b.

(** The [stat] system call: reads the filesystem, changes nothing. *)
Definition sys_stat (path : string) : Py stat_outcome :=
  fun w => (Returns (fs w path), w).

(** [os.stat(path)]: returns what [stat] found, raises [OSError] when it
    failed, and [ValueError] on a path the system call cannot take. *)
Definition os_stat (path : string) : Py file_kind :=
  log (EvStat path) ;;;
  if has_nul path then raise ValueError
  else
    outcome <- sys_stat path ;;
    match outcome with
    | Found k => ret k
    | Failed e => raise (OSError e)
    end.

(** [os.path.exists(path)] ([genericpath.exists]):
<<
    try:
        os.stat(path)
    except (OSError, ValueError):
        return False
    return True
>> *)
Definition os_path_exists (path : string) : Py bool :=
  try_except (os_stat path ;;; ret true) (ret false).

(** [print(text)]: writes [text] and a newline to standard output. *)
Definition print (text : string) : Py unit := log (EvPrint text).

(** ** The script *)

Definition files_to_add : list string :=
  [ "ios/SmartCityGuide/Models/OverpassPOI.swift";
    "ios/SmartCityGuide/Services/OverpassAPIService.swift" ].

Definition project_root : string :=
  "/Users/dengelma/develop/private/smart-city-guide".

Definition banner : string := "🚀 Adding new files to Xcode project...".

(** [f"✅ File exists: {file_path}"] *)
Definition exists_line (file_path : string) : string :=
  "✅ File exists: " ++ file_path.

(** [f"❌ File not found: {file_path}"] *)
Definition not_found_line (file_path : string) : string :=
  "❌ File not found: " ++ file_path.

(** The triple-quoted literal of the last [print]; it opens and closes with
    a newline. *)
Definition manual_steps : string :=
  nl ++ String.concat nl
  [ "📝 Manual Steps Required:";
    "";
    "1. Open Xcode project: /Users/dengelma/develop/private/smart-city-guide/ios/SmartCityGuide.xcodeproj";
    "";
    "2. Add these files to the project:";
    "   - Right-click on 'Models' group → Add Files to " ++ dquote ++ "SmartCityGuide" ++ dquote;
    "   - Select: ios/SmartCityGuide/Models/OverpassPOI.swift";
    "   ";
    "   - Right-click on 'Services' group → Add Files to " ++ dquote ++ "SmartCityGuide" ++ dquote;
    "   - Select: ios/SmartCityGuide/Services/OverpassAPIService.swift";
    "";
    "3. Make sure both files are added to the SmartCityGuide target";
    "";
    "4. Build the project again";
    "";
    "Alternatively, we can try to build again - sometimes Xcode auto-detects new files." ]
  ++ nl.

(** The [for] loop of [main].  [Some c] is the [return c] taken inside the
    loop; [None] is the loop running to its end. *)
Fixpoint for_files (root : string) (files : list string) : Py (option Z) :=
  match files with
  | [] => ret None
  | file_path :: rest =>
      let full_path := os_path_join root file_path in
      found <- os_path_exists full_path ;;
      if (found : bool) then
        print (exists_line file_path) ;;;
        for_files root rest
      else
        print (not_found_line file_path) ;;;
        ret (Some 1)
  end.

Definition main : Py Z :=
  print banner ;;;
  early <- for_files project_root files_to_add ;;
  match early with
  | Some code => ret code
  | None =>
      print manual_steps ;;;
      ret 0
  end.

(** ** The process *)

(** [sys.exit(main())]: an integer becomes the exit status (its low eight
    bits); an exception that escapes [main] ends the interpreter with
    status 1. *)
Definition sys_exit (r : result Z) : Z :=
  match r with
  | Returns n => Z.land n 255
  | Raises _ => 1
  end.

Record Run : Type := mkRun {
  exit_code : Z;
  events : list event;
  fs_after : filesystem
}.

(** One run of the script as a process started on filesystem [f]. *)
Definition script (f : filesystem) : Run :=
  let '(r, w) := main {| fs := f; trace := [] |} in
  {| exit_code := sys_exit r; events := trace w; fs_after := fs w |}.

(** ** Observations on a run *)

Definition printed_of (e : event) : list string :=
  match e with
  | EvPrint t => [t]
  | EvStat _ => []
  end.

Definition stat_of (e : event) : list string :=
  match e with
  | EvStat p => [p]
  | EvPrint _ => []
  end.

(** Arguments of the [print] calls, in order. *)
Definition printed (es : list event) : list string := flat_map printed_of es.

(** Paths handed to [os.stat], in order. *)
Definition stat_calls (es : list event) : list string := flat_map stat_of es.

(** The text on standard output. *)
Definition stdout (es : list event) : string :=
  String.concat "" (map (fun t => t ++ nl) (printed es)).

(** The lines of a text: every newline ends a line; a last line without
    newline counts when it is not empty. *)
Fixpoint lines_from (cur : string) (s : string) : list string :=
  match s with
  | EmptyString => if String.eqb cur "" then [] else [cur]
  | String c r =>
      if Ascii.eqb c (ascii_of_nat 10) then cur :: lines_from "" r
      else lines_from (cur ++ String c EmptyString) r
  end.

Definition lines (s : string) : list string := lines_from "" s.

Definition is_exists_line (l : string) : bool :=
  startswith l "✅ File exists: ".

Definition is_not_found_line (l : string) : bool :=
  startswith l "❌ File not found: ".

Definition is_per_file_line (l : string) : bool :=
  (is_exists_line l || is_not_found_line l)%bool.

(** [os.stat] succeeds on [p]. *)
Definition stat_ok (f : filesystem) (p : string) : bool :=
  (negb (has_nul p) &&
   match f p with
   | Found _ => true
   | Failed _ => false
   end)%bool.

(** There is an entry (of any kind) at [p]. *)
Definition exists_on (f : filesystem) (p : string) : Prop :=
  exists k, f p = Found k.

Definition model_file : string := nth 0 files_to_add "".
Definition service_file : string := nth 1 files_to_add "".

(** ** Sample filesystems *)

Definition fs_empty : filesystem := fun _ => Failed ENOENT.

Definition fs_update (f : filesystem) (p : string) (o : stat_outcome)
  : filesystem :=
  fun q => if String.eqb q p then o else f q.

(** Both files in place, nothing else. *)
Definition fs_complete : filesystem :=
  fs_update
    (fs_update fs_empty (os_path_join project_root model_file) (Found Regular))
    (os_path_join project_root service_file) (Found Regular).

(** Only the model file in place. *)
Definition fs_model_only : filesystem :=
  fs_update fs_empty (os_path_join project_root model_file) (Found Regular).

(** A directory sits where the model file should be. *)
Definition fs_model_is_dir : filesystem :=
  fs_update fs_complete (os_path_join project_root model_file) (Found Directory).

(** The model file cannot be reached: a parent directory denies search. *)
Definition fs_model_denied : filesystem :=
  fs_update fs_complete (os_path_join project_root model_file) (Failed EACCES).

(** Observations on the run of the script started on filesystem [f]. *)
Definition status (f : filesystem) : Z := exit_code (script f).
Definition output (f : filesystem) : string := stdout (events (script f)).
Definition output_lines (f : filesystem) : list string := lines (output f).
Definition prints (f : filesystem) : list string := printed (events (script f)).
Definition probes (f : filesystem) : list string := stat_calls (events (script f)).

(** Events of one pass of the loop body over [file_path]. *)
Definition pass_events (root file_path : string) : list event :=
  [ EvStat (os_path_join root file_path); EvPrint (exists_line file_path) ].

Definition fail_events (root file_path : string) : list event :=
  [ EvStat (os_path_join root file_path); EvPrint (not_found_line file_path) ].

Definition extend (w : World) (es : list event) : World :=
  {| fs := fs w; trace := trace w ++ es |}.

(** ** The loop on any list of files *)

(** The line the loop body prints for [file_path], by the outcome of the
    existence check. *)
Definition report_line (found : bool) (file_path : string) : string :=
  if found then exists_line file_path else not_found_line file_path.

(** Events of one pass of the loop body over [file_path] on filesystem
    [f]: the probe, then the line that reports its outcome. *)
Definition report_events (root : string) (f : filesystem) (file_path : string)
  : list event :=
  [ EvStat (os_path_join root file_path);
    EvPrint (report_line (stat_ok f (os_path_join root file_path)) file_path) ].

(** [os.stat] succeeds on the joined path of [file_path]. *)
Definition present (root : string) (f : filesystem) (file_path : string)
  : bool :=
  stat_ok f (os_path_join root file_path).

(** A relative path: one that [os.path.join] appends to the root. *)
Definition relative (p : string) : bool := negb (startswith p sep).

(** The world of a process that starts on filesystem [f]. *)
Definition boot (f : filesystem) : World := {| fs := f; trace := [] |}.

(** A second project, for trying the loop on other lists. *)
Definition sample_root : string := "/srv/app".

Definition sample_files : list string :=
  [ "a.swift"; "lib/b.swift"; "lib/deep/c.swift" ].

Definition fs_everything : filesystem := fun _ => Found Regular.

(** Everything in place but the second sample file. *)
Definition fs_sample_gap : filesystem :=
  fs_update fs_everything (os_path_join sample_root "lib/b.swift")
            (Failed ENOENT).

(** * Properties *)

(** ** Sanity checks on the embedding *)

Example manual_steps_length : String.length manual_steps = 610%nat.
Proof. reflexivity. Qed.

Example join_model :
  os_path_join project_root model_file =
  "/Users/dengelma/develop/private/smart-city-guide/ios/SmartCityGuide/Models/OverpassPOI.swift".
Proof. reflexivity. Qed.

Example join_absolute : os_path_join "/a" "/b/c" = "/b/c".
Proof. reflexivity. Qed.

Example join_trailing_sep : os_path_join "/a/" "b/c" = "/a/b/c".
Proof. reflexivity. Qed.

Example join_empty_root : os_path_join "" "b/c" = "b/c".
Proof. reflexivity. Qed.

Example lines_sample : lines ("a" ++ nl ++ nl ++ "b") = ["a"; ""; "b"].
Proof. reflexivity. Qed.

(** ** The primitives *)

Lemma extend_nil w : extend w [] = w.
Proof. destruct w as [f t]. unfold extend. cbn. now rewrite app_nil_r. Qed.

Lemma extend_extend w es es' : extend (extend w es) es' = extend w (es ++ es').
Proof. unfold extend. cbn. now rewrite app_assoc. Qed.

Lemma print_run text w : print text w = (Returns tt, extend w [EvPrint text]).
Proof. reflexivity. Qed.

Lemma os_stat_run path w :
  os_stat path w =
  (if has_nul path then Raises ValueError
   else match fs w path with
        | Found k => Returns k
        | Failed e => Raises (OSError e)
        end,
   extend w [EvStat path]).
Proof.
  unfold os_stat, bind at 1. cbn [log].
  destruct (has_nul path); [reflexivity|].
  unfold bind, sys_stat. cbn [fs].
  now destruct (fs w path).
Qed.

Lemma os_path_exists_run path w :
  os_path_exists path w =
  (Returns (stat_ok (fs w) path), extend w [EvStat path]).
Proof.
  unfold os_path_exists, try_except, bind at 1.
  rewrite os_stat_run. unfold stat_ok.
  destruct (has_nul path); [reflexivity|].
  now destruct (fs w path).
Qed.

Lemma stat_ok_exists_on f p :
  has_nul p = false -> (stat_ok f p = true <-> exists_on f p).
Proof.
  intros Hn. unfold stat_ok, exists_on. rewrite Hn. cbn.
  destruct (f p) as [k|e]; split; intros H.
  - now exists k.
  - reflexivity.
  - discriminate.
  - destruct H as [k H]. discriminate.
Qed.

(** ** The loop *)

Section Loop.

Variable root : string.

Lemma for_files_nil w : for_files root [] w = (Returns None, w).
Proof. reflexivity. Qed.

Lemma for_files_cons p rest w :
  for_files root (p :: rest) w =
  if stat_ok (fs w) (os_path_join root p)
  then for_files root rest (extend w (pass_events root p))
  else (Returns (Some 1), extend w (fail_events root p)).
Proof.
  cbn [for_files]. unfold bind at 1. rewrite os_path_exists_run.
  destruct (stat_ok (fs w) (os_path_join root p));
    unfold bind; rewrite print_run, extend_extend; reflexivity.
Qed.

(** The loop never touches the filesystem. *)
Lemma for_files_fs files : forall w, fs (snd (for_files root files w)) = fs w.
Proof.
  induction files as [|p rest IH]; intros w.
  - reflexivity.
  - rewrite for_files_cons.
    destruct (stat_ok (fs w) (os_path_join root p)).
    + now rewrite IH.
    + reflexivity.
Qed.

(** The loop returns, and only [None] or [Some 1]. *)
Lemma for_files_result files :
  forall w,
    fst (for_files root files w) = Returns None \/
    fst (for_files root files w) = Returns (Some 1).
Proof.
  induction files as [|p rest IH]; intros w.
  - now left.
  - rewrite for_files_cons.
    destruct (stat_ok (fs w) (os_path_join root p)).
    + apply IH.
    + now right.
Qed.

(** What the loop does: it passes a prefix of the list, every file of
    which is there, and then either the list is over or the next file
    is missing and ends the loop. *)
Lemma for_files_run files :
  forall w,
  exists pre rest,
    files = (pre ++ rest)%list /\
    forallb (fun p => stat_ok (fs w) (os_path_join root p)) pre = true /\
    ((rest = [] /\
      for_files root files w =
      (Returns None, extend w (flat_map (pass_events root) pre)))
     \/
     (exists p rest',
         rest = p :: rest' /\
         stat_ok (fs w) (os_path_join root p) = false /\
         for_files root files w =
         (Returns (Some 1),
          extend w (flat_map (pass_events root) pre ++ fail_events root p)))).
Proof.
  induction files as [|p rest IH]; intros w.
  - exists [], []. repeat split. left. split; [reflexivity|].
    cbn. now rewrite extend_nil.
  - rewrite for_files_cons.
    destruct (stat_ok (fs w) (os_path_join root p)) eqn:Hp.
    + destruct (IH (extend w (pass_events root p)))
        as (pre & rest' & Hsplit & Hall & Hend).
      exists (p :: pre), rest'. split; [now rewrite Hsplit|].
      split; [cbn [forallb]; now rewrite Hp|].
      destruct Hend as [(Hnil & Hrun) | (q & rest'' & Hq & Hmiss & Hrun)].
      * left. split; [assumption|].
        rewrite Hrun, extend_extend. reflexivity.
      * right. exists q, rest''. repeat split; try assumption.
        rewrite Hrun, extend_extend. cbn [flat_map].
        now rewrite <- app_assoc.
    + exists [], (p :: rest). repeat split.
      right. exists p, rest. repeat split. assumption.
Qed.

(** The paths probed by the loop are the joined paths of a prefix of the
    list, in list order. *)
Lemma for_files_stat_calls files :
  forall w,
  exists n,
    stat_calls (trace (snd (for_files root files w))) =
    (stat_calls (trace w) ++ map (os_path_join root) (firstn n files))%list.
Proof.
  induction files as [|p rest IH]; intros w.
  - exists 0%nat. cbn. now rewrite app_nil_r.
  - rewrite for_files_cons.
    destruct (stat_ok (fs w) (os_path_join root p)).
    + destruct (IH (extend w (pass_events root p))) as [n Hn].
      exists (S n). rewrite Hn. unfold stat_calls. cbn [extend trace].
      rewrite flat_map_app. cbn. now rewrite <- app_assoc.
    + exists 1%nat. unfold stat_calls. cbn [snd extend trace].
      rewrite flat_map_app. reflexivity.
Qed.

Lemma printed_pass_events pre :
  printed (flat_map (pass_events root) pre) = map exists_line pre.
Proof.
  induction pre as [|p pre IH]; [reflexivity|].
  cbn. now rewrite <- IH.
Qed.

(** What the loop prints, for any list of files: an exists line for each
    file of a prefix of the list and then, at most, one not-found line. *)
Lemma for_files_printed files w :
  exists pre closing,
    printed (trace (snd (for_files root files w))) =
      (printed (trace w) ++ map exists_line pre ++ closing)%list /\
    (closing = [] \/ exists p, In p files /\ closing = [not_found_line p]).
Proof.
  destruct (for_files_run files w) as (pre & rest & Hsplit & _ & Hend).
  destruct Hend as [(_ & Hrun) | (p & rest' & Hrest & _ & Hrun)];
    rewrite Hrun; cbn [snd extend trace]; unfold printed at 1;
    rewrite flat_map_app; fold (printed (trace w)).
  - exists pre, []. split; [|now left].
    fold (printed (flat_map (pass_events root) pre)).
    now rewrite printed_pass_events, app_nil_r.
  - exists pre, [not_found_line p]. split.
    + rewrite flat_map_app.
      fold (printed (flat_map (pass_events root) pre)).
      now rewrite printed_pass_events.
    + right. exists p. split; [|reflexivity].
      rewrite Hsplit, Hrest. apply in_or_app. right. now left.
Qed.

End Loop.

(** ** The script, case by case *)

Lemma main_run w :
  main w =
  if stat_ok (fs w) (os_path_join project_root model_file) then
    if stat_ok (fs w) (os_path_join project_root service_file) then
      (Returns 0,
       extend w (EvPrint banner
                 :: pass_events project_root model_file
                 ++ pass_events project_root service_file
                 ++ [EvPrint manual_steps]))
    else
      (Returns 1,
       extend w (EvPrint banner
                 :: pass_events project_root model_file
                 ++ fail_events project_root service_file))
  else
    (Returns 1,
     extend w (EvPrint banner :: fail_events project_root model_file)).
Proof.
  unfold main, bind at 1. rewrite print_run.
  unfold bind at 1, files_to_add.
  change model_file with "ios/SmartCityGuide/Models/OverpassPOI.swift".
  change service_file with "ios/SmartCityGuide/Services/OverpassAPIService.swift".
  rewrite for_files_cons. cbn [fs extend].
  destruct (stat_ok (fs w) (os_path_join project_root _)).
  - rewrite for_files_cons. cbn [fs extend].
    destruct (stat_ok (fs w) (os_path_join project_root _)).
    + rewrite for_files_nil. unfold bind, ret. rewrite print_run.
      unfold extend. cbn [fs trace]. now rewrite <- !app_assoc.
    + unfold ret, extend. cbn [fs trace]. now rewrite <- !app_assoc.
  - unfold ret, extend. cbn [fs trace]. now rewrite <- !app_assoc.
Qed.

Lemma script_run f :
  script f =
  if stat_ok f (os_path_join project_root model_file) then
    if stat_ok f (os_path_join project_root service_file) then
      {| exit_code := 0;
         events := EvPrint banner
                   :: pass_events project_root model_file
                   ++ pass_events project_root service_file
                   ++ [EvPrint manual_steps];
         fs_after := f |}
    else
      {| exit_code := 1;
         events := EvPrint banner
                   :: pass_events project_root model_file
                   ++ fail_events project_root service_file;
         fs_after := f |}
  else
    {| exit_code := 1;
       events := EvPrint banner :: fail_events project_root model_file;
       fs_after := f |}.
Proof.
  unfold script. rewrite main_run. cbn [fs].
  destruct (stat_ok f (os_path_join project_root model_file));
    [destruct (stat_ok f (os_path_join project_root service_file))|];
    reflexivity.
Qed.

Lemma configured_paths_clean :
  has_nul (os_path_join project_root model_file) = false /\
  has_nul (os_path_join project_root service_file) = false.
Proof. split; reflexivity. Qed.

Lemma model_ok_iff f :
  stat_ok f (os_path_join project_root model_file) = true <->
  exists_on f (os_path_join project_root model_file).
Proof. apply stat_ok_exists_on, configured_paths_clean. Qed.

Lemma service_ok_iff f :
  stat_ok f (os_path_join project_root service_file) = true <->
  exists_on f (os_path_join project_root service_file).
Proof. apply stat_ok_exists_on, configured_paths_clean. Qed.

(** Case analysis on the two probes, with the outcome of each recorded
    both as a boolean equation and as a fact about the filesystem. *)
Ltac probe f :=
  rewrite (script_run f);
  let Ha := fresh "Hmodel" in
  let Hb := fresh "Hservice" in
  destruct (stat_ok f (os_path_join project_root model_file)) eqn:Ha;
  [ destruct (stat_ok f (os_path_join project_root service_file)) eqn:Hb | ].

Ltac observe f :=
  unfold status, output_lines, output, prints, probes; probe f.

Ltac absurd_probe :=
  match goal with
  | H : stat_ok _ (os_path_join project_root model_file) = true |- _ =>
      apply model_ok_iff in H; contradiction
  | H : stat_ok _ (os_path_join project_root service_file) = true |- _ =>
      apply service_ok_iff in H; contradiction
  | H : stat_ok ?f (os_path_join project_root model_file) = false,
    E : exists_on ?f (os_path_join project_root model_file) |- _ =>
      apply model_ok_iff in E; congruence
  | H : stat_ok ?f (os_path_join project_root service_file) = false,
    E : exists_on ?f (os_path_join project_root service_file) |- _ =>
      apply service_ok_iff in E; congruence
  end.

(** ** Exit status *)

(** C1. The exit status of the process is 0 exactly when every configured
    relative path, joined to the project root, is present on the
    filesystem, and it is 1 exactly when one of them is not. *)
Theorem exit_status_reflects_presence :
  forall f : filesystem,
    (status f = 0 <->
     Forall (fun p => exists_on f (os_path_join project_root p)) files_to_add)
    /\
    (status f = 1 <->
     Exists (fun p => ~ exists_on f (os_path_join project_root p)) files_to_add).
Proof.
  intros f.
  change files_to_add with [model_file; service_file].
  assert (Hm := model_ok_iff f). assert (Hs := service_ok_iff f).
  observe f; cbn [exit_code]; split; split; intros H;
    try discriminate; try reflexivity.
  - repeat constructor; [now apply Hm | now apply Hs].
  - exfalso. inversion H as [? ? Hno | ? ? Hrest]; subst.
    + apply Hno, Hm, eq_refl.
    + inversion Hrest as [? ? Hno | ? ? Hnil]; subst.
      * apply Hno, Hs, eq_refl.
      * inversion Hnil.
  - exfalso. inversion H as [|? ? _ Hrest]; subst.
    inversion Hrest as [|? ? Hb _]; subst.
    apply Hs in Hb. congruence.
  - apply Exists_cons_tl, Exists_cons_hd. intros Hb.
    apply Hs in Hb. congruence.
  - exfalso. inversion H as [|? ? Ha _]; subst.
    apply Hm in Ha. congruence.
  - apply Exists_cons_hd. intros Ha. apply Hm in Ha. congruence.
Qed.

(** ** The three scenarios *)

(** C2. When the model file is absent, the output holds one not-found
    line, naming the model file; the service file is neither probed nor
    mentioned; the instructions are not printed; the run fails. *)
Theorem missing_model_file_stops_run :
  forall f : filesystem,
    ~ exists_on f (os_path_join project_root model_file) ->
    output_lines f = [banner; not_found_line model_file] /\
    filter is_not_found_line (output_lines f) = [not_found_line model_file] /\
    probes f = [os_path_join project_root model_file] /\
    ~ In (os_path_join project_root service_file) (probes f) /\
    ~ In (exists_line service_file) (prints f) /\
    ~ In (not_found_line service_file) (prints f) /\
    ~ In manual_steps (prints f) /\
    status f = 1.
Proof.
  intros f Hmiss. observe f; try absurd_probe.
  repeat split; try reflexivity;
    cbn; intros H; repeat destruct H as [H|H]; try discriminate H; exact H.
Qed.

(** C3. When both files are present, the output holds two exists lines,
    model file first and service file second, then the instructions as
    they stand in the script; the run succeeds. *)
Theorem both_present_prints_instructions :
  forall f : filesystem,
    exists_on f (os_path_join project_root model_file) ->
    exists_on f (os_path_join project_root service_file) ->
    filter is_per_file_line (output_lines f) =
      [exists_line model_file; exists_line service_file] /\
    prints f =
      [banner; exists_line model_file; exists_line service_file; manual_steps] /\
    output f =
      banner ++ nl ++ exists_line model_file ++ nl ++
      exists_line service_file ++ nl ++ manual_steps ++ nl /\
    status f = 0.
Proof.
  intros f Ha Hb. observe f; try absurd_probe.
  repeat split; reflexivity.
Qed.

(** C4. When the model file is present and the service file is absent, the
    output holds an exists line for the model file, then a not-found line
    for the service file; the instructions are not printed; the run
    fails. *)
Theorem missing_service_file_stops_run :
  forall f : filesystem,
    exists_on f (os_path_join project_root model_file) ->
    ~ exists_on f (os_path_join project_root service_file) ->
    output_lines f =
      [banner; exists_line model_file; not_found_line service_file] /\
    filter is_per_file_line (output_lines f) =
      [exists_line model_file; not_found_line service_file] /\
    ~ In manual_steps (prints f) /\
    status f = 1.
Proof.
  intros f Ha Hb. observe f; try absurd_probe.
  repeat split; try reflexivity.
  cbn; intros H; repeat destruct H as [H|H]; try discriminate H; exact H.
Qed.

(** ** Path construction *)

Lemma os_path_join_relative a b :
  startswith b sep = false ->
  a <> "" ->
  endswith_sep a = false ->
  os_path_join a b = a ++ sep ++ b.
Proof.
  intros Hb Ha He. unfold os_path_join. rewrite Hb, He.
  destruct (String.eqb_spec a ""); [contradiction | reflexivity].
Qed.

(** C5. Every path handed to the existence test is the join of the project
    root and a configured relative path, taken in list order; it is never
    a relative path on its own nor the root on its own; and the join of the
    root and any relative path, nested or not, is the root, a separator
    and the relative path. *)
Theorem probes_are_joined_paths :
  forall f : filesystem,
    (exists n, (1 <= n)%nat /\
       probes f = map (os_path_join project_root) (firstn n files_to_add)) /\
    (forall q, In q (probes f) -> ~ In q files_to_add /\ q <> project_root) /\
    (forall p, startswith p sep = false ->
       os_path_join project_root p = project_root ++ sep ++ p).
Proof.
  intros f. split; [|split].
  - observe f; [exists 2%nat | exists 2%nat | exists 1%nat];
      (split; [lia | reflexivity]).
  - intros q Hq.
    assert (Hin : In q (map (os_path_join project_root) files_to_add)).
    { revert Hq. observe f; cbn; tauto. }
    clear Hq. cbn in Hin.
    destruct Hin as [<-|[<-|[]]]; split;
      try discriminate; cbn; intros H;
      repeat destruct H as [H|H]; try discriminate H; exact H.
  - intros p Hp. apply os_path_join_relative; [assumption | discriminate | reflexivity].
Qed.

(** ** Frame and determinism *)

Lemma main_unfold w :
  main w =
  match for_files project_root files_to_add (extend w [EvPrint banner]) with
  | (Returns (Some code), w') => (Returns code, w')
  | (Returns None, w') => (Returns 0, extend w' [EvPrint manual_steps])
  | (Raises e, w') => (Raises e, w')
  end.
Proof.
  unfold main, bind at 1. rewrite print_run. unfold bind at 1.
  destruct (for_files project_root files_to_add (extend w [EvPrint banner]))
    as [[[code|]|e] w']; reflexivity.
Qed.

Lemma main_fs w : fs (snd (main w)) = fs w.
Proof.
  rewrite main_unfold.
  pose proof (for_files_fs project_root files_to_add (extend w [EvPrint banner]))
    as Hfs.
  destruct (for_files project_root files_to_add (extend w [EvPrint banner]))
    as [[[code|]|e] w']; cbn in Hfs |- *; assumption.
Qed.

Lemma script_fs_after f : fs_after (script f) = f.
Proof.
  unfold script.
  pose proof (main_fs {| fs := f; trace := [] |}) as H.
  destruct (main {| fs := f; trace := [] |}) as [r w]. exact H.
Qed.

Lemma main_result w : fst (main w) = Returns 0 \/ fst (main w) = Returns 1.
Proof.
  rewrite main_unfold.
  destruct (for_files_result project_root files_to_add
              (extend w [EvPrint banner])) as [H|H];
    destruct (for_files project_root files_to_add (extend w [EvPrint banner]))
      as [r w']; cbn in H; subst r.
  - left. reflexivity.
  - right. reflexivity.
Qed.

(** C7. A second run, started on the filesystem the first run left
    behind, writes the same text to standard output and ends with the
    same status. *)
Theorem second_run_repeats_first :
  forall f : filesystem,
    output (fs_after (script f)) = output f /\
    status (fs_after (script f)) = status f.
Proof.
  intros f. rewrite script_fs_after. split; reflexivity.
Qed.

(** C8. Whatever the outcome, the filesystem after the run is the
    filesystem before it: [stat] reports the same for every path, and
    every action of the run is a [stat] probe or a write to standard
    output. *)
Theorem run_leaves_filesystem_unchanged :
  forall f : filesystem,
    (status f = 0 \/ status f = 1) /\
    fs_after (script f) = f /\
    (forall p, fs_after (script f) p = f p) /\
    Forall (fun e => (exists p, e = EvStat p) \/ (exists t, e = EvPrint t))
           (events (script f)).
Proof.
  intros f. split; [|split; [|split]].
  - observe f; cbn; tauto.
  - apply script_fs_after.
  - intros p. now rewrite script_fs_after.
  - apply Forall_forall. intros [p|t] _; [left | right]; eauto.
Qed.

(** ** Safety *)

(** C9. From every world [main] returns, and it returns 0 or 1; the
    existence check returns a boolean and lets no exception escape. *)
Theorem main_returns_zero_or_one :
  forall w : World,
    (fst (main w) = Returns 0 \/ fst (main w) = Returns 1) /\
    (forall path, exists found, fst (os_path_exists path w) = Returns found) /\
    (forall e, fst (main w) <> Raises e).
Proof.
  intros w. split; [|split].
  - apply main_result.
  - intros path. rewrite os_path_exists_run. now eexists.
  - intros e. destruct (main_result w) as [H|H]; rewrite H; discriminate.
Qed.

(** ** Not-found lines *)

(** C10. The output never holds more than one not-found line, and a
    not-found line that is there is the last of the per-file lines, all
    lines before it being exists lines. *)
Theorem at_most_one_not_found_line :
  forall f : filesystem,
    (length (filter is_not_found_line (output_lines f)) <= 1)%nat /\
    (forall l, In l (output_lines f) -> is_not_found_line l = true ->
       exists pre,
         filter is_per_file_line (output_lines f) = (pre ++ [l])%list /\
         forallb is_exists_line pre = true).
Proof.
  intros f. observe f.
  - split; [vm_compute; lia|].
    intros l Hin Hnf. exfalso. revert Hnf.
    cbn in Hin. repeat destruct Hin as [<-|Hin]; try discriminate.
    destruct Hin.
  - split; [vm_compute; lia|].
    intros l Hin Hnf. exists [exists_line model_file]. revert Hnf.
    cbn in Hin. repeat destruct Hin as [<-|Hin]; try discriminate;
      [|destruct Hin].
    intros _. split; reflexivity.
  - split; [vm_compute; lia|].
    intros l Hin Hnf. exists []. revert Hnf.
    cbn in Hin. repeat destruct Hin as [<-|Hin]; try discriminate;
      [|destruct Hin].
    intros _. split; reflexivity.
Qed.

(** ** What counts as not found *)

Lemma stat_ok_failed f p e : f p = Failed e -> stat_ok f p = false.
Proof. intros H. unfold stat_ok. rewrite H. apply andb_false_r. Qed.

Lemma fs_update_same f p o : fs_update f p o p = o.
Proof. unfold fs_update. now rewrite String.eqb_refl. Qed.

Lemma stat_ok_update_other f p o q :
  String.eqb q p = false -> stat_ok (fs_update f p o) q = stat_ok f q.
Proof. intros H. unfold stat_ok, fs_update. now rewrite H. Qed.

(** C6, as stated, fails: with a directory at the place of the model file
    the existence check succeeds, the run reports the model file as
    existing and ends with status 0. *)
Lemma directory_is_reported_as_existing :
  fs_model_is_dir (os_path_join project_root model_file) = Found Directory /\
  status fs_model_is_dir = 0 /\
  In (exists_line model_file) (output_lines fs_model_is_dir) /\
  ~ (forall (f : filesystem) (p : string),
        In p files_to_add ->
        f (os_path_join project_root p) = Failed ENOENT \/
        f (os_path_join project_root p) = Found Directory \/
        f (os_path_join project_root p) = Failed EACCES ->
        (exists q, In (not_found_line q) (output_lines f)) /\
        ~ In manual_steps (prints f) /\
        status f = 1).
Proof.
  split; [reflexivity|]. split; [reflexivity|]. split.
  - vm_compute. right. left. reflexivity.
  - intros H.
    destruct (H fs_model_is_dir model_file) as (_ & _ & Hstatus).
    + left. reflexivity.
    + right. left. reflexivity.
    + vm_compute in Hstatus. discriminate.
Qed.

(** C6, amended.  Whatever error makes [stat] fail on a configured path
    (no such entry, permission denied, or any other), the run is the one
    it would be if the path did not exist: same output, same probes, same
    status; it ends with a single not-found line, prints no instructions
    and fails. *)
Theorem stat_failures_all_read_as_not_found :
  forall (f : filesystem) (p : string) (e : errno),
    In p files_to_add ->
    f (os_path_join project_root p) = Failed e ->
    output f =
      output (fs_update f (os_path_join project_root p) (Failed ENOENT)) /\
    probes f =
      probes (fs_update f (os_path_join project_root p) (Failed ENOENT)) /\
    status f =
      status (fs_update f (os_path_join project_root p) (Failed ENOENT)) /\
    (exists q,
        In q files_to_add /\
        filter is_not_found_line (output_lines f) = [not_found_line q] /\
        last (output_lines f) "" = not_found_line q) /\
    ~ In manual_steps (prints f) /\
    status f = 1.
Proof.
  intros f p e Hin Hfail.
  pose proof (stat_ok_failed _ _ _ Hfail) as Hno.
  pose proof (stat_ok_failed _ _ ENOENT
                (fs_update_same f (os_path_join project_root p) (Failed ENOENT)))
    as Hno'.
  change files_to_add with [model_file; service_file] in Hin.
  destruct Hin as [<-|[<-|[]]].
  - unfold status, output_lines, output, prints, probes.
    rewrite !script_run, Hno, Hno'.
    repeat split; try reflexivity.
    + exists model_file. repeat split; try reflexivity. left. reflexivity.
    + cbn; intros H; repeat destruct H as [H|H]; try discriminate H; exact H.
  - assert (Hother :
      stat_ok (fs_update f (os_path_join project_root service_file)
                         (Failed ENOENT))
              (os_path_join project_root model_file) =
      stat_ok f (os_path_join project_root model_file))
      by (apply stat_ok_update_other; reflexivity).
    unfold status, output_lines, output, prints, probes.
    rewrite !script_run, Hno, Hno', Hother.
    destruct (stat_ok f (os_path_join project_root model_file)).
    + repeat split; try reflexivity.
      * exists service_file. repeat split; try reflexivity.
        right. left. reflexivity.
      * cbn; intros H; repeat destruct H as [H|H]; try discriminate H; exact H.
    + repeat split; try reflexivity.
      * exists model_file. repeat split; try reflexivity. left. reflexivity.
      * cbn; intros H; repeat destruct H as [H|H]; try discriminate H; exact H.
Qed.

(** ** The theorems at work on sample filesystems *)

Lemma missing_model_file_stops_run_on_empty :
  ~ exists_on fs_empty (os_path_join project_root model_file) /\
  output_lines fs_empty = [banner; not_found_line model_file] /\
  status fs_empty = 1.
Proof.
  assert (Hmiss : ~ exists_on fs_empty (os_path_join project_root model_file))
    by (intros [k Hk]; discriminate Hk).
  split; [exact Hmiss|].
  destruct (missing_model_file_stops_run fs_empty Hmiss)
    as (Hlines & _ & _ & _ & _ & _ & _ & Hstatus).
  split; assumption.
Defined.

Lemma both_present_prints_instructions_on_complete :
  exists_on fs_complete (os_path_join project_root model_file) /\
  exists_on fs_complete (os_path_join project_root service_file) /\
  prints fs_complete =
    [banner; exists_line model_file; exists_line service_file; manual_steps] /\
  status fs_complete = 0.
Proof.
  assert (Ha : exists_on fs_complete (os_path_join project_root model_file))
    by (exists Regular; reflexivity).
  assert (Hb : exists_on fs_complete (os_path_join project_root service_file))
    by (exists Regular; reflexivity).
  split; [exact Ha|]. split; [exact Hb|].
  destruct (both_present_prints_instructions fs_complete Ha Hb)
    as (_ & Hprints & _ & Hstatus).
  split; assumption.
Defined.

Lemma missing_service_file_stops_run_on_model_only :
  exists_on fs_model_only (os_path_join project_root model_file) /\
  ~ exists_on fs_model_only (os_path_join project_root service_file) /\
  output_lines fs_model_only =
    [banner; exists_line model_file; not_found_line service_file] /\
  status fs_model_only = 1.
Proof.
  assert (Ha : exists_on fs_model_only (os_path_join project_root model_file))
    by (exists Regular; reflexivity).
  assert (Hb : ~ exists_on fs_model_only
                   (os_path_join project_root service_file))
    by (intros [k Hk]; discriminate Hk).
  split; [exact Ha|]. split; [exact Hb|].
  destruct (missing_service_file_stops_run fs_model_only Ha Hb)
    as (Hlines & _ & _ & Hstatus).
  split; assumption.
Defined.

Lemma stat_failures_all_read_as_not_found_on_denied :
  In model_file files_to_add /\
  fs_model_denied (os_path_join project_root model_file) = Failed EACCES /\
  output fs_model_denied =
    output (fs_update fs_model_denied
                      (os_path_join project_root model_file) (Failed ENOENT)) /\
  status fs_model_denied = 1.
Proof.
  assert (Hin : In model_file files_to_add) by (left; reflexivity).
  assert (Hfail :
    fs_model_denied (os_path_join project_root model_file) = Failed EACCES)
    by reflexivity.
  split; [exact Hin|]. split; [exact Hfail|].
  destruct (stat_failures_all_read_as_not_found
              fs_model_denied model_file EACCES Hin Hfail)
    as (Hout & _ & _ & _ & _ & Hstatus).
  split; assumption.
Defined.

(** * The loop on any root and any list of files *)

Section AnyList.

Variable root : string.

(** X1. The loop runs to its end exactly when every file of the list is
    there, and leaves with 1 exactly when one of them is not. *)
Theorem loop_result_decides_presence :
  forall (files : list string) (w : World),
    (fst (for_files root files w) = Returns None <->
     forallb (present root (fs w)) files = true) /\
    (fst (for_files root files w) = Returns (Some 1) <->
     existsb (fun p => negb (present root (fs w) p)) files = true).
Proof.
  induction files as [|p rest IH]; intros w.
  - cbn. split; split; intros H; try reflexivity; discriminate H.
  - rewrite for_files_cons. cbn [forallb existsb]. unfold present at 1 3.
    destruct (stat_ok (fs w) (os_path_join root p)); cbn [negb andb orb].
    + apply (IH (extend w (pass_events root p))).
    + cbn. split; split; intros H; try reflexivity; discriminate H.
Qed.

Lemma stat_calls_pass_events files :
  stat_calls (flat_map (pass_events root) files) =
  map (os_path_join root) files.
Proof.
  induction files as [|p rest IH]; [reflexivity|].
  cbn. now rewrite <- IH.
Qed.

(** X2. When every file of the list is there, the loop probes the joined path
    of each file once, in list order, prints one exists line per file, in
    list order, and runs to its end; on the empty list it does nothing. *)
Theorem loop_passes_every_present_file :
  forall (files : list string) (w : World),
    forallb (present root (fs w)) files = true ->
    for_files root files w =
      (Returns None, extend w (flat_map (pass_events root) files)) /\
    stat_calls (flat_map (pass_events root) files) =
      map (os_path_join root) files /\
    printed (flat_map (pass_events root) files) = map exists_line files.
Proof.
  intros files w Hall. split; [|split].
  - revert w Hall. induction files as [|p rest IH]; intros w Hall.
    + cbn. now rewrite extend_nil.
    + cbn [forallb] in Hall. apply andb_true_iff in Hall as [Hp Hrest].
      unfold present in Hp. rewrite for_files_cons, Hp.
      rewrite (IH (extend w (pass_events root p)) Hrest).
      now rewrite extend_extend.
  - apply stat_calls_pass_events.
  - apply printed_pass_events.
Qed.

(** X3. The loop stops at the first file that is not there: the files before
    it are probed and reported as existing, the missing file is probed and
    reported as not found, the loop leaves with 1, and the files after it
    play no part. *)
Theorem loop_stops_at_first_missing_file :
  forall (pre : list string) (p : string) (rest : list string) (w : World),
    forallb (present root (fs w)) pre = true ->
    present root (fs w) p = false ->
    for_files root (pre ++ p :: rest) w =
      (Returns (Some 1),
       extend w (flat_map (pass_events root) pre ++ fail_events root p)) /\
    for_files root (pre ++ p :: rest) w = for_files root (pre ++ [p]) w.
Proof.
  assert (Hrun : forall pre p rest w,
    forallb (present root (fs w)) pre = true ->
    present root (fs w) p = false ->
    for_files root (pre ++ p :: rest) w =
      (Returns (Some 1),
       extend w (flat_map (pass_events root) pre ++ fail_events root p))).
  { induction pre as [|q pre IH]; intros p rest w Hall Hmiss.
    - unfold present in Hmiss. cbn [app flat_map].
      now rewrite for_files_cons, Hmiss.
    - cbn [forallb] in Hall. apply andb_true_iff in Hall as [Hq Hpre].
      unfold present in Hq. cbn [app]. rewrite for_files_cons, Hq.
      rewrite (IH p rest (extend w (pass_events root q)) Hpre Hmiss).
      rewrite extend_extend. cbn [flat_map]. now rewrite <- app_assoc. }
  intros pre p rest w Hall Hmiss. split.
  - now apply Hrun.
  - now rewrite (Hrun pre p rest w), (Hrun pre p [] w).
Qed.

(** X4. Whatever the filesystem, the loop handles a prefix of the list,
    without skipping a file: each probe is followed at once by the line
    that reports its outcome for that file, so there are as many lines as
    probes, and no more than files. *)
Theorem loop_reports_every_probe :
  forall (files : list string) (w : World),
    exists n,
      (n <= length files)%nat /\
      snd (for_files root files w) =
        extend w (flat_map (report_events root (fs w)) (firstn n files)) /\
      length (stat_calls (flat_map (report_events root (fs w))
                                   (firstn n files))) = n /\
      length (printed (flat_map (report_events root (fs w))
                                (firstn n files))) = n.
Proof.
  assert (Hcount : forall f l,
    length (stat_calls (flat_map (report_events root f) l)) = length l /\
    length (printed (flat_map (report_events root f) l)) = length l).
  { intros f l. induction l as [|p l [IH1 IH2]]; [split; reflexivity|].
    cbn. now rewrite <- IH1 at 1; rewrite <- IH2 at 1. }
  induction files as [|p rest IH]; intros w.
  - exists 0%nat. cbn. rewrite extend_nil. repeat split; lia.
  - rewrite for_files_cons.
    destruct (stat_ok (fs w) (os_path_join root p)) eqn:Hp.
    + destruct (IH (extend w (pass_events root p)))
        as (n & Hle & Hrun & _ & _).
      exists (S n). split; [cbn; lia|]. split.
      * rewrite Hrun, extend_extend. cbn [firstn flat_map fs extend].
        unfold report_events at 2, report_line. now rewrite Hp.
      * destruct (Hcount (fs w) (firstn (S n) (p :: rest))) as [H1 H2].
        rewrite H1, H2, length_firstn. cbn [length]. split; lia.
    + exists 1%nat. split; [cbn; lia|]. split.
      * cbn [snd firstn flat_map]. rewrite app_nil_r.
        unfold report_events, report_line. now rewrite Hp.
      * destruct (Hcount (fs w) (firstn 1 (p :: rest))) as [H1 H2].
        rewrite H1, H2. split; reflexivity.
Qed.

End AnyList.

(** ** What the loop looks at *)

(** X5. The loop sees the filesystem only through the existence check on the
    joined paths of the listed files: two worlds that agree on those, and
    on what was done so far, get the same result and the same events. *)
Theorem loop_sees_only_listed_paths :
  forall (root : string) (files : list string) (w1 w2 : World),
    (forall p, In p files ->
       present root (fs w1) p = present root (fs w2) p) ->
    trace w1 = trace w2 ->
    fst (for_files root files w1) = fst (for_files root files w2) /\
    trace (snd (for_files root files w1)) =
      trace (snd (for_files root files w2)).
Proof.
  intros root files. induction files as [|p rest IH]; intros w1 w2 Hsame Htr.
  - cbn. now split.
  - rewrite !for_files_cons.
    assert (Hp : present root (fs w1) p = present root (fs w2) p)
      by (apply Hsame; now left).
    unfold present in Hp. rewrite <- Hp.
    destruct (stat_ok (fs w1) (os_path_join root p)).
    + apply IH.
      * intros q Hq. apply Hsame. now right.
      * cbn. now rewrite Htr.
    + cbn. now rewrite Htr.
Qed.

(** ** Distinct files, distinct probes *)

Lemma append_cancel_l (a p q : string) : a ++ p = a ++ q -> p = q.
Proof.
  induction a as [|c a IH]; cbn; intros H; [assumption|].
  injection H as H. now apply IH.
Qed.

Lemma os_path_join_injective root p q :
  relative p = true -> relative q = true ->
  os_path_join root p = os_path_join root q -> p = q.
Proof.
  unfold relative, os_path_join. intros Hp Hq.
  apply negb_true_iff in Hp, Hq. rewrite Hp, Hq.
  destruct (String.eqb root "" || endswith_sep root)%bool; intros H.
  - now apply append_cancel_l in H.
  - now apply append_cancel_l, append_cancel_l in H.
Qed.

(** X6. Relative paths that differ are probed at paths that differ, whatever
    the root: a list of relative paths without repetition gives a list of
    joined paths without repetition. *)
Theorem distinct_files_have_distinct_probes :
  forall (root : string) (files : list string),
    forallb relative files = true ->
    NoDup files ->
    NoDup (map (os_path_join root) files).
Proof.
  intros root files. induction files as [|p rest IH]; intros Hrel Hnd.
  - constructor.
  - cbn [forallb] in Hrel. apply andb_true_iff in Hrel as [Hp Hrest].
    inversion Hnd as [|? ? Hnotin Hnd']; subst.
    cbn [map]. constructor; [|now apply IH].
    intros Hin. apply in_map_iff in Hin as (q & Hjoin & Hq).
    assert (Hqrel : relative q = true)
      by (now apply (proj1 (forallb_forall relative rest) Hrest)).
    apply (os_path_join_injective root q p Hqrel Hp) in Hjoin.
    subst q. contradiction.
Qed.

(** * The script as a whole *)

Lemma bool_eq_of_iff (a b : bool) (P Q : Prop) :
  (a = true <-> P) -> (b = true <-> Q) -> (P <-> Q) -> a = b.
Proof.
  intros Ha Hb HPQ. destruct a, b; try reflexivity.
  - symmetry. apply Hb, HPQ, Ha. reflexivity.
  - apply Ha, HPQ, Hb. reflexivity.
Qed.

(** X7. Two filesystems that agree on whether there is an entry at each of
    the configured joined paths give the same run: the same events, the
    same text on standard output, the same exit status.  Nothing else on
    the filesystem, and no other property of those entries, is looked
    at. *)
Theorem run_depends_only_on_configured_entries :
  forall f g : filesystem,
    (forall p, In p files_to_add ->
       (exists_on f (os_path_join project_root p) <->
        exists_on g (os_path_join project_root p))) ->
    events (script f) = events (script g) /\
    output f = output g /\
    status f = status g.
Proof.
  intros f g Hsame.
  assert (Ha : stat_ok f (os_path_join project_root model_file) =
               stat_ok g (os_path_join project_root model_file)).
  { apply (bool_eq_of_iff _ _ _ _ (model_ok_iff f) (model_ok_iff g)).
    apply Hsame. left. reflexivity. }
  assert (Hb : stat_ok f (os_path_join project_root service_file) =
               stat_ok g (os_path_join project_root service_file)).
  { apply (bool_eq_of_iff _ _ _ _ (service_ok_iff f) (service_ok_iff g)).
    apply Hsame. right. left. reflexivity. }
  unfold output, status. rewrite !script_run, Ha, Hb.
  destruct (stat_ok g (os_path_join project_root model_file));
    [destruct (stat_ok g (os_path_join project_root service_file))|];
    repeat split; reflexivity.
Qed.

(** X8. The instructions are printed exactly in the runs that end with status
    0, and the runs that end with status 1 are exactly those whose last
    line of output is the not-found line of a configured file. *)
Theorem instructions_printed_iff_success :
  forall f : filesystem,
    (In manual_steps (prints f) <-> status f = 0) /\
    (status f = 1 <->
     exists p, In p files_to_add /\
               last (output_lines f) "" = not_found_line p).
Proof.
  intros f. change files_to_add with [model_file; service_file].
  observe f; cbn [exit_code]; split; split; intros H;
    try reflexivity; try discriminate H.
  - cbn. do 3 right. left. reflexivity.
  - exfalso. destruct H as (p & [<-|[<-|[]]] & Hlast);
      vm_compute in Hlast; discriminate Hlast.
  - exfalso. cbn in H. repeat destruct H as [H|H]; try discriminate H; exact H.
  - exists service_file. split; [right; left|]; reflexivity.
  - exfalso. cbn in H. repeat destruct H as [H|H]; try discriminate H; exact H.
  - exists model_file. split; [left|]; reflexivity.
Qed.

(** X9. [main] only adds to what was done before: from any world it appends
    the events of a run started on that world's filesystem and returns
    that run's exit status; called twice in a row, it does so twice. *)
Theorem main_appends_a_run :
  forall w : World,
    main w =
      (Returns (status (fs w)), extend w (events (script (fs w)))) /\
    (main ;;; main) w =
      (Returns (status (fs w)),
       extend w (events (script (fs w)) ++ events (script (fs w)))).
Proof.
  assert (Hone : forall w,
    main w = (Returns (status (fs w)), extend w (events (script (fs w))))).
  { intros w. unfold status. rewrite main_run, script_run.
    destruct (stat_ok (fs w) (os_path_join project_root model_file));
      [destruct (stat_ok (fs w) (os_path_join project_root service_file))|];
      reflexivity. }
  intros w. split; [apply Hone|].
  unfold bind. rewrite (Hone w), (Hone (extend w _)).
  cbn [fs extend]. now rewrite extend_extend.
Qed.

(** ** The loop and the script on sample filesystems *)

Lemma loop_passes_every_present_file_on_sample :
  forallb (present sample_root (fs (boot fs_everything))) sample_files = true /\
  for_files sample_root sample_files (boot fs_everything) =
    (Returns None,
     extend (boot fs_everything)
            (flat_map (pass_events sample_root) sample_files)) /\
  printed (flat_map (pass_events sample_root) sample_files) =
    map exists_line sample_files.
Proof.
  assert (Hall : forallb (present sample_root (fs (boot fs_everything)))
                         sample_files = true) by reflexivity.
  split; [exact Hall|].
  destruct (loop_passes_every_present_file
              sample_root sample_files (boot fs_everything) Hall)
    as (Hrun & _ & Hprinted).
  split; assumption.
Defined.

Lemma loop_stops_at_first_missing_file_on_sample :
  forallb (present sample_root (fs (boot fs_sample_gap))) ["a.swift"] = true /\
  present sample_root (fs (boot fs_sample_gap)) "lib/b.swift" = false /\
  for_files sample_root (["a.swift"] ++ "lib/b.swift" :: ["lib/deep/c.swift"])
            (boot fs_sample_gap) =
    (Returns (Some 1),
     extend (boot fs_sample_gap)
            (flat_map (pass_events sample_root) ["a.swift"]
             ++ fail_events sample_root "lib/b.swift")).
Proof.
  assert (Hpre : forallb (present sample_root (fs (boot fs_sample_gap)))
                         ["a.swift"] = true) by reflexivity.
  assert (Hmiss : present sample_root (fs (boot fs_sample_gap)) "lib/b.swift"
                  = false) by reflexivity.
  split; [exact Hpre|]. split; [exact Hmiss|].
  exact (proj1 (loop_stops_at_first_missing_file
                  sample_root ["a.swift"] "lib/b.swift" ["lib/deep/c.swift"]
                  (boot fs_sample_gap) Hpre Hmiss)).
Defined.

Lemma loop_sees_only_listed_paths_on_sample :
  (forall p, In p sample_files ->
     present sample_root (fs (boot fs_everything)) p =
     present sample_root
       (fs (boot (fs_update fs_everything "/elsewhere/x" (Failed ENOENT)))) p) /\
  trace (boot fs_everything) =
    trace (boot (fs_update fs_everything "/elsewhere/x" (Failed ENOENT))) /\
  fst (for_files sample_root sample_files (boot fs_everything)) =
    fst (for_files sample_root sample_files
           (boot (fs_update fs_everything "/elsewhere/x" (Failed ENOENT)))).
Proof.
  assert (Hsame : forall p, In p sample_files ->
     present sample_root (fs (boot fs_everything)) p =
     present sample_root
       (fs (boot (fs_update fs_everything "/elsewhere/x" (Failed ENOENT)))) p).
  { intros p [<-|[<-|[<-|[]]]]; reflexivity. }
  assert (Htr : trace (boot fs_everything) =
    trace (boot (fs_update fs_everything "/elsewhere/x" (Failed ENOENT))))
    by reflexivity.
  split; [exact Hsame|]. split; [exact Htr|].
  exact (proj1 (loop_sees_only_listed_paths
                  sample_root sample_files _ _ Hsame Htr)).
Defined.

Lemma distinct_files_have_distinct_probes_on_sample :
  forallb relative sample_files = true /\
  NoDup sample_files /\
  NoDup (map (os_path_join sample_root) sample_files).
Proof.
  assert (Hrel : forallb relative sample_files = true) by reflexivity.
  assert (Hnd : NoDup sample_files).
  { repeat constructor; cbn; intros H;
      repeat destruct H as [H|H]; try discriminate H; exact H. }
  split; [exact Hrel|]. split; [exact Hnd|].
  exact (distinct_files_have_distinct_probes sample_root sample_files Hrel Hnd).
Defined.

Lemma run_depends_only_on_configured_entries_on_directory :
  (forall p, In p files_to_add ->
     (exists_on fs_complete (os_path_join project_root p) <->
      exists_on fs_model_is_dir (os_path_join project_root p))) /\
  output fs_complete = output fs_model_is_dir /\
  status fs_complete = status fs_model_is_dir.
Proof.
  assert (Hsame : forall p, In p files_to_add ->
     (exists_on fs_complete (os_path_join project_root p) <->
      exists_on fs_model_is_dir (os_path_join project_root p))).
  { intros p [<-|[<-|[]]]; split; intros _; eexists; reflexivity. }
  split; [exact Hsame|].
  destruct (run_depends_only_on_configured_entries
              fs_complete fs_model_is_dir Hsame) as (_ & Hout & Hstatus).
  split; assumption.
Defined.
